(** * tracardi-postgresql-connector: the PostgreSQL plugin action

    A shallow embedding of [tracardi_postgresql_connector/plugin.py] and
    [tracardi_postgresql_connector/model/postresql.py].

    Layout:
    - Python values as the asyncpg driver hands them to the plugin
      ([pyobj]), with the builtins the plugin calls on them
      ([datetime.isoformat], [date.isoformat], [float] on a [Decimal]);
    - the [json] module as far as [to_dict] uses it: [json.dumps] with a
      [default] hook and [json.loads], over JSON documents;
    - the record-to-dict protocol behind [dict(record)];
    - [to_dict], [run], [close], [__init__] and [register];
    - the [Connection] model with its field defaults;
    - the properties. *)

From Stdlib Require Import ZArith List String Ascii Bool Lia.
From Stdlib Require Import Floats.SpecFloat.
Import ListNotations.
Open Scope string_scope.
Open Scope Z_scope.

Set Implicit Arguments.
#[local] Set Warnings "-register-all,-notation-for-abbreviation".

(* ================================================================== *)
(** ** Formatting integers, as the [%0Nd] conversions do *)

Module Fmt.

Definition digit (d : Z) : ascii := ascii_of_nat (48 + Z.to_nat d).

(** The decimal digits of a non-negative [n], most significant first.
    [fuel] bounds the number of digits written. *)
Fixpoint digits (fuel : nat) (n : Z) (acc : string) : string :=
  match fuel with
  | O => acc
  | S fuel' =>
      let acc' := String (digit (n mod 10)) acc in
      if n / 10 =? 0 then acc' else digits fuel' (n / 10) acc'
  end.

Definition of_Z (n : Z) : string :=
  digits (S (Z.to_nat (Z.log2 n))) n "".

Fixpoint zeros (k : nat) : string :=
  match k with
  | O => ""
  | S k' => String "0" (zeros k')
  end.

(** [%0wd] applied to a non-negative integer. *)
Definition zpad (w : nat) (n : Z) : string :=
  let s := of_Z n in
  zeros (w - String.length s) ++ s.

End Fmt.

(* ================================================================== *)
(** ** [datetime.date] and [datetime.datetime] *)

Record date : Set := mkDate {
  d_year : Z;
  d_month : Z;
  d_day : Z
}.

(** [tzinfo] is kept as the UTC offset it yields, in microseconds;
    [None] is a naive datetime. *)
Record datetime : Set := mkDatetime {
  dt_date : date;
  dt_hour : Z;
  dt_minute : Z;
  dt_second : Z;
  dt_microsecond : Z;
  dt_utcoffset : option Z
}.

(** [date.isoformat()]: ["%04d-%02d-%02d"]. *)
Definition date_isoformat (d : date) : string :=
  Fmt.zpad 4 (d_year d) ++ "-" ++ Fmt.zpad 2 (d_month d) ++ "-"
    ++ Fmt.zpad 2 (d_day d).

(** The time part with [timespec='auto']: microseconds are written only
    when they are not zero. *)
Definition format_time (hh mm ss us : Z) : string :=
  Fmt.zpad 2 hh ++ ":" ++ Fmt.zpad 2 mm ++ ":" ++ Fmt.zpad 2 ss
    ++ (if us =? 0 then "" else "." ++ Fmt.zpad 6 us).

(** The UTC offset suffix: sign, hours and minutes, then seconds and
    microseconds when they are not zero. *)
Definition format_offset (off : option Z) : string :=
  match off with
  | None => ""
  | Some o =>
      let sign := if o <? 0 then "-" else "+" in
      let a := Z.abs o in
      let hh := a / 3600000000 in
      let r := a mod 3600000000 in
      let mm := r / 60000000 in
      let r' := r mod 60000000 in
      let ss := r' / 1000000 in
      let us := r' mod 1000000 in
      sign ++ Fmt.zpad 2 hh ++ ":" ++ Fmt.zpad 2 mm
        ++ (if r' =? 0 then ""
            else ":" ++ Fmt.zpad 2 ss
                 ++ (if us =? 0 then "" else "." ++ Fmt.zpad 6 us))
  end.

(** [datetime.isoformat()] with the default separator ['T']. *)
Definition datetime_isoformat (d : datetime) : string :=
  date_isoformat (dt_date d) ++ "T"
    ++ format_time (dt_hour d) (dt_minute d) (dt_second d) (dt_microsecond d)
    ++ format_offset (dt_utcoffset d).

(* ================================================================== *)
(** ** [decimal.Decimal] and Python floats *)

(** A [Decimal] as PostgreSQL's [numeric] decodes to: a finite number
    [(-1)^sign * coefficient * 10^exponent], an infinity or the quiet NaN.
    (The driver's [numeric] codec never builds a signalling NaN, the one
    [Decimal] on which [float] raises.) *)
Inductive decimal : Set :=
| DecFinite (sign : bool) (coefficient : N) (exponent : Z)
| DecInfinity (sign : bool)
| DecNaN.

(** A Python float is an IEEE 754 binary64 number. *)
Definition pyfloat : Set := spec_float.

Module Float64.

Definition prec : Z := 53.
Definition emax : Z := 1024.

(** The binary64 number nearest to [n / d] (ties to even), for
    [n, d > 0].  The quotient is taken with enough extra bits that the
    rounding sees at least [prec] significant bits and a sticky
    remainder. *)
Definition of_ratio (sign : bool) (n d : Z) : pyfloat :=
  let k := Z.max 0 (prec + 2 + Z.log2 d - Z.log2 n) in
  let q := (n * 2 ^ k) / d in
  let r := (n * 2 ^ k) mod d in
  let loc :=
    if r =? 0 then loc_Exact else loc_Inexact (Z.compare (2 * r) d) in
  binary_round_aux prec emax sign q (- k) loc.

End Float64.

(** [float(d)] for a [Decimal] [d]: the correctly rounded binary64 value
    of the decimal, keeping the sign of zero; overflow gives an infinity. *)
Definition float_of_decimal (d : decimal) : pyfloat :=
  match d with
  | DecNaN => S754_nan
  | DecInfinity s => S754_infinity s
  | DecFinite s 0%N _ => S754_zero s
  | DecFinite s c e =>
      if 0 <=? e
      then Float64.of_ratio s (Z.of_N c * 10 ^ e) 1
      else Float64.of_ratio s (Z.of_N c) (10 ^ (- e))
  end.

(* ================================================================== *)
(** ** Exceptions and results *)

Inductive exn : Set :=
| SyntaxError
| TypeError
| AttributeError
| RecursionError
| ConfigurationError
| ConnectionError
| QueryError
| TimeoutError.

Inductive result (A : Type) : Type :=
| Ok (a : A)
| Raise (e : exn).

Arguments Ok {A} a.
Arguments Raise {A} e.

(** A map over a list that stops at the first exception, as a list
    comprehension or the encoder's loop over the items does. *)
Definition mapM {A B : Type} (f : A -> result B) : list A -> result (list B) :=
  fix go (l : list A) : result (list B) :=
    match l with
    | [] => Ok []
    | x :: t =>
        match f x with
        | Raise e => Raise e
        | Ok y =>
            match go t with
            | Raise e => Raise e
            | Ok ys => Ok (y :: ys)
            end
        end
    end.

(* ================================================================== *)
(** ** Python values *)

(** The values a row can hold and the values [json.loads] builds.
    [PyOpaque] stands for an object of any class the [json] module has no
    encoding for, other than the three [json_default] names (a [UUID], a
    [bytes], a [timedelta], a [time], an asyncpg [Range], ...). *)
Inductive pyobj : Set :=
| PyNone
| PyBool (b : bool)
| PyInt (z : Z)
| PyFloat (f : pyfloat)
| PyStr (s : string)
| PyList (l : list pyobj)
| PyTuple (l : list pyobj)
| PyDict (items : list (string * pyobj))
| PyDatetime (d : datetime)
| PyDate (d : date)
| PyDecimal (d : decimal)
| PyOpaque (repr : string).

(** The items of a mapping with string keys, in iteration order.  For a
    [dict] the keys are pairwise distinct; an asyncpg [Record] lists its
    columns, and two columns may carry one name. *)
Definition items : Set := list (string * pyobj).

Section PyobjInd.

Variable P : pyobj -> Prop.
Hypothesis HNone : P PyNone.
Hypothesis HBool : forall b, P (PyBool b).
Hypothesis HInt : forall z, P (PyInt z).
Hypothesis HFloat : forall f, P (PyFloat f).
Hypothesis HStr : forall s, P (PyStr s).
Hypothesis HList : forall l, Forall P l -> P (PyList l).
Hypothesis HTuple : forall l, Forall P l -> P (PyTuple l).
Hypothesis HDict : forall its : items,
    Forall (fun kv => P (snd kv)) its -> P (PyDict its).
Hypothesis HDatetime : forall d, P (PyDatetime d).
Hypothesis HDate : forall d, P (PyDate d).
Hypothesis HDecimal : forall d, P (PyDecimal d).
Hypothesis HOpaque : forall r, P (PyOpaque r).

(** Induction that reaches the elements of lists, tuples and dicts. *)
Fixpoint pyobj_nested_ind (o : pyobj) : P o :=
  let elems :=
    fix elems (l : list pyobj) : Forall P l :=
      match l with
      | [] => Forall_nil P
      | x :: t => Forall_cons x (pyobj_nested_ind x) (elems t)
      end in
  let values :=
    fix values (its : items) : Forall (fun kv => P (snd kv)) its :=
      match its with
      | [] => Forall_nil _
      | kv :: t =>
          Forall_cons (P := fun kv => P (snd kv)) kv
            (pyobj_nested_ind (snd kv)) (values t)
      end in
  match o with
  | PyNone => HNone
  | PyBool b => HBool b
  | PyInt z => HInt z
  | PyFloat f => HFloat f
  | PyStr s => HStr s
  | PyList l => HList (elems l)
  | PyTuple l => HTuple (elems l)
  | PyDict its => HDict (values its)
  | PyDatetime d => HDatetime d
  | PyDate d => HDate d
  | PyDecimal d => HDecimal d
  | PyOpaque r => HOpaque r
  end.

End PyobjInd.

(* ================================================================== *)
(** ** Dicts and the mapping protocol *)

(** [d[k] = v]: an existing key keeps its place and takes the new value,
    a new key goes to the end. *)
Fixpoint dict_setitem (d : items) (k : string) (v : pyobj) : items :=
  match d with
  | [] => [(k, v)]
  | (k', v') :: t =>
      if String.eqb k' k then (k', v) :: t
      else (k', v') :: dict_setitem t k v
  end.

(** [d.get(k)] on a dict. *)
Fixpoint dict_get (d : items) (k : string) : option pyobj :=
  match d with
  | [] => None
  | (k', v) :: t => if String.eqb k' k then Some v else dict_get t k
  end.

Definition keys (m : items) : list string := map fst m.

(** [dict(pairs)]: the pairs are stored one after the other. *)
Definition dict_of_pairs (l : items) : items :=
  fold_left (fun d kv => dict_setitem d (fst kv) (snd kv)) l [].

(** [record[k]] for a column name [k]: asyncpg maps a name to the index of
    the last column that carries it. *)
Fixpoint record_getitem (r : items) (k : string) : option pyobj :=
  match r with
  | [] => None
  | (k', v) :: t =>
      match record_getitem t k with
      | Some v' => Some v'
      | None => if String.eqb k' k then Some v else None
      end
  end.

(** [dict(record)]: a record is not a dict but has [keys()], so the
    constructor runs [for k in record.keys(): d[k] = record[k]].  (Every
    key comes from the record, so the lookup cannot miss.) *)
Definition dict_of_record (r : items) : items :=
  fold_left
    (fun d k =>
       match record_getitem r k with
       | Some v => dict_setitem d k v
       | None => d
       end)
    (keys r) [].

(* ================================================================== *)
(** ** The [json] module *)

(** A JSON document.  Numbers keep the two forms the encoder writes: an
    integer literal, or a float literal (the shortest repr that reads back
    as the same float, or one of [NaN], [Infinity], [-Infinity]).  The text
    between [json.dumps] and [json.loads] is not modelled: the decoder
    reads back the document the encoder wrote. *)
Inductive json : Set :=
| JNull
| JBool (b : bool)
| JInt (z : Z)
| JFloat (f : pyfloat)
| JString (s : string)
| JArray (l : list json)
| JObject (members : list (string * json)).

(** [sys.getrecursionlimit()]: how often [default] may be asked, in a
    chain, for a replacement of its own result. *)
Definition recursion_limit : nat := 1000.

(** [JSONEncoder.encode] with a [default] hook: the scalar types, lists,
    tuples and dicts are written natively; for any other object the hook
    is called and its result is encoded in turn. *)
Fixpoint encode (default : pyobj -> pyobj) (fuel : nat) {struct fuel}
  : pyobj -> result json :=
  fix enc (o : pyobj) : result json :=
    match o with
    | PyNone => Ok JNull
    | PyBool b => Ok (JBool b)
    | PyInt z => Ok (JInt z)
    | PyFloat f => Ok (JFloat f)
    | PyStr s => Ok (JString s)
    | PyList l | PyTuple l =>
        match mapM enc l with
        | Ok js => Ok (JArray js)
        | Raise e => Raise e
        end
    | PyDict its =>
        match
          mapM (fun kv : string * pyobj =>
                  let (k, v) := kv in
                  match enc v with
                  | Ok j => Ok (k, j)
                  | Raise e => Raise e
                  end) its
        with
        | Ok ms => Ok (JObject ms)
        | Raise e => Raise e
        end
    | PyDatetime _ | PyDate _ | PyDecimal _ | PyOpaque _ =>
        match fuel with
        | O => Raise RecursionError
        | S fuel' => encode default fuel' (default o)
        end
    end.

Definition json_dumps (default : pyobj -> pyobj) (o : pyobj) : result json :=
  encode default recursion_limit o.

(** [json.loads]: arrays become lists and objects become dicts built from
    their members in order. *)
Fixpoint json_loads (j : json) : pyobj :=
  match j with
  | JNull => PyNone
  | JBool b => PyBool b
  | JInt z => PyInt z
  | JFloat f => PyFloat f
  | JString s => PyStr s
  | JArray l => PyList (map json_loads l)
  | JObject ms =>
      PyDict (dict_of_pairs (map (fun kv => (fst kv, json_loads (snd kv))) ms))
  end.

(** The classes of values [json_default] and the encoder tell apart. *)

(** [isinstance(obj, (datetime, date))], with [obj.isoformat()]. *)
Definition isoformat (obj : pyobj) : option string :=
  match obj with
  | PyDatetime d => Some (datetime_isoformat d)
  | PyDate d => Some (date_isoformat d)
  | _ => None
  end.

(** The JSON-native scalars: null, booleans, numbers and strings. *)
Definition json_scalar (obj : pyobj) : bool :=
  match obj with
  | PyNone | PyBool _ | PyInt _ | PyFloat _ | PyStr _ => true
  | _ => false
  end.

(** The values the encoder cannot write itself and [json_default] has no
    special branch for. *)
Definition other_type (obj : pyobj) : bool :=
  match obj with
  | PyOpaque _ => true
  | _ => false
  end.



(** The names of a list, each kept at its first place. *)
Fixpoint first_occurrences (l : list string) : list string :=
  match l with
  | [] => []
  | k :: t =>
      k :: filter (fun x => negb (String.eqb x k)) (first_occurrences t)
  end.

(* ================================================================== *)
(** ** The result serializer: [PostreSQLConnectorAction.to_dict] *)

Section Serializer.

(** The builtin [str], for the objects that have no other branch in
    [json_default]. *)
Variable py_str : pyobj -> string.

(** The nested function [json_default] of [to_dict]. *)
Definition json_default (obj : pyobj) : pyobj :=
  match obj with
  | PyDatetime d => PyStr (datetime_isoformat d)
  | PyDate d => PyStr (date_isoformat d)
  | PyDecimal d => PyFloat (float_of_decimal d)
  | _ => PyStr (py_str obj)
  end.

(** [json.loads(json.dumps(dict(record), default=json_default))]. *)
Definition to_dict (record : items) : result pyobj :=
  match json_dumps json_default (PyDict (dict_of_record record)) with
  | Ok text => Ok (json_loads text)
  | Raise e => Raise e
  end.

(** What one value of a row becomes, written as a recursion over the
    value.  [to_dict_eq] below shows that [to_dict] computes it. *)
Fixpoint convert (v : pyobj) : pyobj :=
  match v with
  | PyNone | PyBool _ | PyInt _ | PyFloat _ | PyStr _ => v
  | PyList l | PyTuple l => PyList (map convert l)
  | PyDict its =>
      PyDict (dict_of_pairs (map (fun kv => (fst kv, convert (snd kv))) its))
  | PyDatetime d => PyStr (datetime_isoformat d)
  | PyDate d => PyStr (date_isoformat d)
  | PyDecimal d => PyFloat (float_of_decimal d)
  | PyOpaque _ => PyStr (py_str v)
  end.

Definition convert_items (its : items) : items :=
  map (fun kv => (fst kv, convert (snd kv))) its.

(** The serialized form of one row, as a function of the row. *)
Definition serialized (row : items) : pyobj :=
  PyDict (convert_items (dict_of_record row)).

End Serializer.

(* ================================================================== *)
(** ** The [Connection] model ([model/postresql.py]) *)

Record Connection : Set := mkConnection {
  database : string;
  user : string;
  password : string;
  host : string;
  port : Z
}.

(** [Connection(database=..., user=..., password=..., host=..., port=...)]:
    the three required fields, and the two fields that have a default in
    the class body; [None] is a keyword that was not passed. *)
Definition Connection_new (database user password : string)
    (host : option string) (port : option Z) : Connection :=
  {| database := database;
     user := user;
     password := password;
     host := match host with Some h => h | None => "localhost" end;
     port := match port with Some p => p | None => 5439 end |}.

(* ================================================================== *)
(** ** The [Configuration] model *)

Record Configuration : Set := mkConfiguration {
  source_id : string;
  query : string;
  timeout : Z
}.

(** Modelled from the spec: the class [Configuration] of
    [model/configuration.py], which [plugin.py] imports, is not among the
    sources.  The spec gives its fields: the reference [source.id] of a
    credential record, the SQL text [query], and [timeout], an integer
    number of seconds with default 20. *)
Definition Configuration_new (source_id query : string) (timeout : option Z)
  : Configuration :=
  {| source_id := source_id;
     query := query;
     timeout := match timeout with Some t => t | None => 20 end |}.

(** Modelled from the spec: the [Configuration] constructor applied to
    the keywords of the mapping the host passes, with [source.id] and
    [query] strings and [timeout] an integer when present; anything else
    is a configuration error. *)
Definition validate (config : items) : result Configuration :=
  match dict_get config "source", dict_get config "query" with
  | Some (PyDict src), Some (PyStr q) =>
      match dict_get src "id" with
      | Some (PyStr id) =>
          match dict_get config "timeout" with
          | None => Ok (Configuration_new id q None)
          | Some (PyInt t) => Ok (Configuration_new id q (Some t))
          | Some _ => Raise ConfigurationError
          end
      | _ => Raise ConfigurationError
      end
  | _, _ => Raise ConfigurationError
  end.

(** The [init] mapping of [register()]: the configuration a new node of
    this plugin starts with. *)
Definition register_init : items :=
  [ ("source", PyDict [("id", PyNone)]);
    ("query", PyNone);
    ("timeout", PyInt 20) ].

Definition register_inputs : list string := ["payload"].

(* ================================================================== *)
(** ** The action runner *)

(** [Result(port=..., value=...)] of the plugin SDK. *)
Record Result : Set := mkResult {
  res_port : string;
  res_value : pyobj
}.

(** How a function is introduced: [def] or [async def]. *)
Inductive def_kind : Set := Def | AsyncDef.

Section Action.

Variable py_str : pyobj -> string.

(** The world outside the plugin (network, server, driver state) and
    the driver's connection handles. *)
Variable world : Type.
Variable conn : Type.

(** A computation that may await the world: it reads and changes the
    world and returns a value or raises. *)
Definition M (A : Type) : Type := world -> result A * world.

Definition ret {A} (a : A) : M A := fun w => (Ok a, w).
Definition raise {A} (e : exn) : M A := fun w => (Raise e, w).
Definition bind {A B} (c : M A) (k : A -> M B) : M B :=
  fun w =>
    match c w with
    | (Ok a, w') => k a w'
    | (Raise e, w') => (Raise e, w')
    end.
Definition lift {A} (r : result A) : M A := fun w => (r, w).

Notation "x <- c ;; k" := (bind c (fun x => k))
  (at level 61, c at next level, right associativity).

(** The compiler's rule on [await]: it is accepted in the body of an
    [async def] only.  A plain [def] whose body awaits is rejected with a
    [SyntaxError]; the embedding reports it where the function would be
    entered. *)
Definition define {A} (kind : def_kind) (awaits : bool) (body : M A) : M A :=
  match kind, awaits with
  | Def, true => raise SyntaxError
  | _, _ => body
  end.

(** The driver: [asyncpg.connect], [Connection.fetch] with a timeout in
    seconds, [Connection.close]. *)
Variable asyncpg_connect : string -> string -> string -> string -> Z -> M conn.
Variable conn_fetch : conn -> string -> Z -> M (list items).
Variable conn_close : conn -> M unit.

(** The host: the credentials stored for a resource, and their
    resolution into a [Connection]. *)
Variable ResourceCredentials : Type.
Variable resource_load : string -> M ResourceCredentials.
Variable get_credentials : ResourceCredentials -> result Connection.

(** [Connection.connect]. *)
Definition Connection_connect (c : Connection) : M conn :=
  define AsyncDef true
    (asyncpg_connect (database c) (user c) (password c) (host c) (port c)).

(** The attributes of a [PostreSQLConnectorAction].  [self.db] is [None]
    when the action holds no connection object. *)
Record action : Type := mkAction {
  self_db : option conn;
  self_query : string;
  self_timeout : Z
}.

(** The statements of [__init__], one after the other. *)
Definition init_body (config : Configuration)
    (credentials : ResourceCredentials) : M action :=
  connection <- lift (get_credentials credentials) ;;
  db <- Connection_connect connection ;;
  ret {| self_db := Some db;
         self_query := query config;
         self_timeout := timeout config |}.

(** [__init__] is introduced by [def], and its second statement
    awaits. *)
Definition PostreSQLConnectorAction_init (config : Configuration)
    (credentials : ResourceCredentials) : M action :=
  define Def true (init_body config credentials).

(** [build]. *)
Definition build (kwargs : items) : M action :=
  define AsyncDef true
    (config <- lift (validate kwargs) ;;
     resource <- resource_load (source_id config) ;;
     PostreSQLConnectorAction_init config resource).

(** [run]: the payload is a parameter the body never reads. *)
Definition run (self : action) (payload : pyobj) : M Result :=
  define AsyncDef true
    (match self_db self with
     | None => raise AttributeError
     | Some db =>
         result <- conn_fetch db (self_query self) (self_timeout self) ;;
         result <- lift (mapM (to_dict py_str) result) ;;
         ret {| res_port := "result";
                res_value := PyDict [("result", PyList result)] |}
     end).

(** [close]: a connection object is truthy, [None] is not. *)
Definition close (self : action) : M unit :=
  define AsyncDef true
    (match self_db self with
     | Some db => conn_close db
     | None => ret tt
     end).

End Action.

(* ================================================================== *)
(** ** A simulated host and driver

    One concrete world to run the action in: a server that holds one
    table, answers a query after [latency] seconds, and may lose the
    cancel request the driver sends when a query times out.  Closing a
    connection whose cancellation failed reports that failure, as the
    driver does when it awaits the pending cancellation first. *)

Module Sim.

Record world : Set := mkWorld {
  server_up : bool;
  latency : Z;
  table : list items;
  resources : list (string * option Connection);
  cancel_lost : bool;
  open_conns : list nat;
  broken_conns : list nat;
  next_conn : nat
}.

Definition M (A : Type) : Type := world -> result A * world.

Definition mem (c : nat) (l : list nat) : bool := existsb (Nat.eqb c) l.

Definition without (c : nat) (l : list nat) : list nat :=
  filter (fun x => negb (Nat.eqb c x)) l.

Definition db_connect (database user password host : string) (port : Z)
  : M nat :=
  fun w =>
    if server_up w
    then (Ok (next_conn w),
          {| server_up := server_up w; latency := latency w;
             table := table w; resources := resources w;
             cancel_lost := cancel_lost w;
             open_conns := next_conn w :: open_conns w;
             broken_conns := broken_conns w;
             next_conn := S (next_conn w) |})
    else (Raise ConnectionError, w).

Definition db_fetch (c : nat) (query : string) (timeout : Z)
  : M (list items) :=
  fun w =>
    if negb (mem c (open_conns w)) then (Raise ConnectionError, w)
    else if latency w <? timeout then (Ok (table w), w)
    else (Raise TimeoutError,
          {| server_up := server_up w; latency := latency w;
             table := table w; resources := resources w;
             cancel_lost := cancel_lost w;
             open_conns := open_conns w;
             broken_conns :=
               if cancel_lost w then c :: broken_conns w
               else broken_conns w;
             next_conn := next_conn w |}).

Definition db_close (c : nat) : M unit :=
  fun w =>
    if negb (mem c (open_conns w)) then (Ok tt, w)
    else if mem c (broken_conns w) then (Raise ConnectionError, w)
    else (Ok tt,
          {| server_up := server_up w; latency := latency w;
             table := table w; resources := resources w;
             cancel_lost := cancel_lost w;
             open_conns := without c (open_conns w);
             broken_conns := broken_conns w;
             next_conn := next_conn w |}).

Fixpoint lookup (id : string) (l : list (string * option Connection))
  : option (option Connection) :=
  match l with
  | [] => None
  | (k, v) :: t => if String.eqb k id then Some v else lookup id t
  end.

(** A resource holds credentials that resolve to a [Connection], or
    credentials that do not fit the model. *)
Definition resource_load (id : string) : M (option Connection) :=
  fun w =>
    match lookup id (resources w) with
    | Some creds => (Ok creds, w)
    | None => (Raise ConfigurationError, w)
    end.

Definition get_credentials (creds : option Connection) : result Connection :=
  match creds with
  | Some c => Ok c
  | None => Raise ConfigurationError
  end.

(** [str] on the opaque objects of the simulation: their repr. *)
Definition py_str (o : pyobj) : string :=
  match o with
  | PyOpaque r => r
  | _ => ""
  end.

Definition run := run py_str db_fetch.
Definition close := close db_close.
Definition init := PostreSQLConnectorAction_init db_connect get_credentials.
Definition init_statements := init_body db_connect get_credentials.

(** A sample table: the row of the spec's scenario, then a second row. *)
Definition new_year : datetime :=
  mkDatetime (mkDate 2023 1 1) 0 0 0 0 None.

Definition row1 : items :=
  [ ("id", PyInt 1);
    ("created", PyDatetime new_year);
    ("amount", PyDecimal (DecFinite false 1999 (-2))) ].

Definition row2 : items :=
  [ ("id", PyInt 2);
    ("created", PyDate (mkDate 2024 2 29));
    ("amount", PyOpaque "b'\x00'") ].

Definition pg : Connection := Connection_new "shop" "reader" "secret" None None.

Definition w0 : world :=
  {| server_up := true; latency := 3; table := [row1; row2];
     resources := [("pg-1", Some pg)];
     cancel_lost := true;
     open_conns := [0%nat]; broken_conns := []; next_conn := 1%nat |}.

Definition act (timeout : Z) : action nat :=
  {| self_db := Some 0%nat; self_query := "SELECT * FROM orders";
     self_timeout := timeout |}.

End Sim.

(* ================================================================== *)
(** * Properties *)

Open Scope list_scope.

(** ** Dicts *)

Section DictFacts.

Lemma keys_app (a b : items) : keys (a ++ b) = keys a ++ keys b.
Proof. apply map_app. Qed.

Lemma dict_setitem_fresh (d : items) k v :
  ~ In k (keys d) -> dict_setitem d k v = d ++ [(k, v)].
Proof.
  induction d as [|[k' v'] t IH]; simpl; intros Hk; [reflexivity|].
  destruct (String.eqb_spec k' k) as [->|Hne].
  - exfalso. apply Hk. now left.
  - f_equal. apply IH. intros Hin. apply Hk. now right.
Qed.

Lemma keys_dict_setitem_known (d : items) k v :
  In k (keys d) -> keys (dict_setitem d k v) = keys d.
Proof.
  induction d as [|[k' v'] t IH]; simpl; intros Hk; [contradiction|].
  destruct (String.eqb_spec k' k) as [->|Hne]; simpl; [reflexivity|].
  f_equal. apply IH. destruct Hk as [Hk|Hk]; [congruence|exact Hk].
Qed.

Lemma in_keys_dict_setitem (d : items) k v k0 :
  In k0 (keys (dict_setitem d k v)) <-> In k0 (keys d) \/ k0 = k.
Proof.
  induction d as [|[k' v'] t IH]; simpl.
  - intuition congruence.
  - destruct (String.eqb_spec k' k) as [->|Hne]; simpl.
    + intuition congruence.
    + rewrite IH. intuition.
Qed.

Lemma NoDup_keys_dict_setitem (d : items) k v :
  NoDup (keys d) -> NoDup (keys (dict_setitem d k v)).
Proof.
  induction d as [|[k' v'] t IH]; simpl; intros Hd.
  - constructor; [intros []|constructor].
  - inversion Hd as [|? ? Hnin Ht]; subst.
    destruct (String.eqb_spec k' k) as [->|Hne]; simpl.
    + constructor; assumption.
    + constructor; [|apply IH; exact Ht].
      rewrite in_keys_dict_setitem. intros [Hin|Heq]; [auto|congruence].
Qed.

Lemma dict_get_setitem_same (d : items) k v :
  dict_get (dict_setitem d k v) k = Some v.
Proof.
  induction d as [|[k' v'] t IH]; simpl.
  - now rewrite String.eqb_refl.
  - destruct (String.eqb_spec k' k) as [->|Hne]; simpl.
    + now rewrite String.eqb_refl.
    + destruct (String.eqb_spec k' k); [congruence|exact IH].
Qed.

Lemma dict_get_setitem_other (d : items) k v k0 :
  k0 <> k -> dict_get (dict_setitem d k v) k0 = dict_get d k0.
Proof.
  intros Hne. induction d as [|[k' v'] t IH]; simpl.
  - destruct (String.eqb_spec k k0); [congruence|reflexivity].
  - destruct (String.eqb_spec k' k) as [->|Hne']; simpl.
    + destruct (String.eqb_spec k k0); [congruence|reflexivity].
    + destruct (String.eqb_spec k' k0); [reflexivity|exact IH].
Qed.

Lemma dict_get_in_keys (d : items) k :
  dict_get d k <> None <-> In k (keys d).
Proof.
  induction d as [|[k' v'] t IH]; simpl.
  - intuition.
  - destruct (String.eqb_spec k' k) as [->|Hne].
    + split; [now left|discriminate].
    + rewrite IH. intuition.
Qed.

Lemma dict_get_map_values (f : pyobj -> pyobj) (d : items) k :
  dict_get (map (fun kv => (fst kv, f (snd kv))) d) k
  = option_map f (dict_get d k).
Proof.
  induction d as [|[k' v'] t IH]; simpl; [reflexivity|].
  destruct (String.eqb k' k); [reflexivity|exact IH].
Qed.

Lemma keys_map_values (f : pyobj -> pyobj) (d : items) :
  keys (map (fun kv => (fst kv, f (snd kv))) d) = keys d.
Proof.
  unfold keys. rewrite map_map. reflexivity.
Qed.

Lemma dict_setitem_map_values (f : pyobj -> pyobj) (d : items) k v :
  map (fun kv => (fst kv, f (snd kv))) (dict_setitem d k v)
  = dict_setitem (map (fun kv => (fst kv, f (snd kv))) d) k (f v).
Proof.
  induction d as [|[k' v'] t IH]; simpl; [reflexivity|].
  destruct (String.eqb k' k); simpl; [reflexivity|].
  now rewrite IH.
Qed.

(** Storing pairs with fresh, distinct keys appends them. *)
Lemma fold_setitem_fresh (l acc : items) :
  NoDup (keys (acc ++ l)) ->
  fold_left (fun d kv => dict_setitem d (fst kv) (snd kv)) l acc = acc ++ l.
Proof.
  revert acc. induction l as [|[k v] t IH]; intros acc Hnd; simpl.
  - now rewrite app_nil_r.
  - rewrite dict_setitem_fresh.
    + rewrite IH; rewrite <- app_assoc; [reflexivity|exact Hnd].
    + rewrite keys_app in Hnd. simpl in Hnd.
      apply NoDup_remove_2 in Hnd. intros Hin. apply Hnd.
      apply in_or_app. now left.
Qed.

Lemma dict_of_pairs_NoDup (l : items) :
  NoDup (keys l) -> dict_of_pairs l = l.
Proof. intros Hnd. unfold dict_of_pairs. now rewrite fold_setitem_fresh. Qed.

Lemma fold_setitem_keys_NoDup (l acc : items) :
  NoDup (keys acc) ->
  NoDup (keys (fold_left (fun d kv => dict_setitem d (fst kv) (snd kv)) l acc)).
Proof.
  revert acc. induction l as [|[k v] t IH]; intros acc Hnd; simpl.
  - exact Hnd.
  - apply IH. now apply NoDup_keys_dict_setitem.
Qed.

Lemma keys_dict_of_pairs_NoDup (l : items) : NoDup (keys (dict_of_pairs l)).
Proof. apply fold_setitem_keys_NoDup. constructor. Qed.

Lemma fold_setitem_map_values (f : pyobj -> pyobj) (l acc : items) :
  map (fun kv => (fst kv, f (snd kv)))
    (fold_left (fun d kv => dict_setitem d (fst kv) (snd kv)) l acc)
  = fold_left (fun d kv => dict_setitem d (fst kv) (snd kv))
      (map (fun kv => (fst kv, f (snd kv))) l)
      (map (fun kv => (fst kv, f (snd kv))) acc).
Proof.
  revert acc. induction l as [|[k v] t IH]; intros acc; simpl.
  - reflexivity.
  - rewrite IH. now rewrite dict_setitem_map_values.
Qed.

Lemma dict_of_pairs_map_values (f : pyobj -> pyobj) (l : items) :
  map (fun kv => (fst kv, f (snd kv))) (dict_of_pairs l)
  = dict_of_pairs (map (fun kv => (fst kv, f (snd kv))) l).
Proof. apply (fold_setitem_map_values f l []). Qed.

End DictFacts.

(** ** Records and [dict(record)] *)

Section RecordFacts.

Lemma record_getitem_in_keys (r : items) k :
  record_getitem r k <> None <-> In k (keys r).
Proof.
  induction r as [|[k' v'] t IH]; simpl.
  - intuition.
  - destruct (record_getitem t k) as [v|] eqn:E.
    + split; [|discriminate]. intros _. right. apply IH. discriminate.
    + destruct (String.eqb_spec k' k) as [->|Hne].
      * split; [now left|discriminate].
      * split; [contradiction|].
        intros [Heq|Hin]; [congruence|]. now apply IH in Hin.
Qed.

Lemma record_getitem_unique (r : items) k v :
  NoDup (keys r) -> In (k, v) r -> record_getitem r k = Some v.
Proof.
  induction r as [|[k' v'] t IH]; simpl; intros Hnd Hin; [contradiction|].
  inversion Hnd as [|? ? Hnin Ht]; subst.
  destruct Hin as [Heq|Hin].
  - inversion Heq; subst.
    destruct (record_getitem t k) as [v0|] eqn:E.
    + exfalso. apply Hnin. apply record_getitem_in_keys. now rewrite E.
    + now rewrite String.eqb_refl.
  - now rewrite (IH Ht Hin).
Qed.

(** On a dict, whose keys are distinct, the record lookup is the dict
    lookup. *)
Lemma record_getitem_dict (d : items) k :
  NoDup (keys d) -> record_getitem d k = dict_get d k.
Proof.
  induction d as [|[k' v'] t IH]; simpl; intros Hnd; [reflexivity|].
  inversion Hnd as [|? ? Hnin Ht]; subst.
  rewrite (IH Ht).
  destruct (String.eqb_spec k' k) as [->|Hne].
  - destruct (dict_get t k) as [v|] eqn:E; [|reflexivity].
    exfalso. apply Hnin. apply dict_get_in_keys. now rewrite E.
  - now destruct (dict_get t k).
Qed.

Variable g : string -> option pyobj.

Let store (d : items) (k : string) : items :=
  match g k with
  | Some v => dict_setitem d k v
  | None => d
  end.

Lemma fold_store_NoDup (ks : list string) (acc : items) :
  NoDup (keys acc) -> NoDup (keys (fold_left store ks acc)).
Proof.
  revert acc. induction ks as [|k t IH]; intros acc Hnd; simpl.
  - exact Hnd.
  - apply IH. unfold store. destruct (g k); [|exact Hnd].
    now apply NoDup_keys_dict_setitem.
Qed.

Lemma fold_store_get_skip (ks : list string) (acc : items) k :
  ~ In k ks -> dict_get (fold_left store ks acc) k = dict_get acc k.
Proof.
  revert acc. induction ks as [|k' t IH]; intros acc Hk; simpl.
  - reflexivity.
  - rewrite IH by (intros Hin; apply Hk; now right).
    unfold store. destruct (g k'); [|reflexivity].
    apply dict_get_setitem_other. intros ->. apply Hk. now left.
Qed.

Lemma fold_store_get (ks : list string) (acc : items) k v :
  In k ks -> g k = Some v -> dict_get (fold_left store ks acc) k = Some v.
Proof.
  revert acc. induction ks as [|k' t IH]; intros acc Hk Hg; simpl.
  - contradiction.
  - destruct (in_dec string_dec k t) as [Hin|Hnin].
    + now apply IH.
    + destruct Hk as [->|Hk]; [|contradiction].
      rewrite fold_store_get_skip by exact Hnin.
      unfold store. rewrite Hg. apply dict_get_setitem_same.
Qed.

Lemma fold_store_keys (ks : list string) (acc : items) k :
  In k (keys (fold_left store ks acc))
  <-> In k (keys acc) \/ (In k ks /\ g k <> None).
Proof.
  revert acc. induction ks as [|k' t IH]; intros acc; simpl.
  - intuition.
  - rewrite IH. unfold store. destruct (g k') as [v|] eqn:E.
    + rewrite in_keys_dict_setitem. split.
      * intros [[H|H]|H]; [now left| |right; intuition].
        right. subst. split; [now left|congruence].
      * intros [H|[[H|H] Hg]]; [left; now left| |right; now split].
        left. right. congruence.
    + split.
      * intros [H|[H Hg]]; [now left|right; intuition].
      * intros [H|[[H|H] Hg]]; [now left| |right; now split].
        subst. congruence.
Qed.

End RecordFacts.

Lemma dict_of_record_NoDup (r : items) : NoDup (keys (dict_of_record r)).
Proof. apply fold_store_NoDup. constructor. Qed.

Lemma dict_of_record_get (r : items) k :
  dict_get (dict_of_record r) k = record_getitem r k.
Proof.
  unfold dict_of_record.
  destruct (record_getitem r k) as [v|] eqn:E.
  - apply fold_store_get; [|exact E].
    apply record_getitem_in_keys. now rewrite E.
  - rewrite fold_store_get_skip; [reflexivity|].
    intros Hin. apply record_getitem_in_keys in Hin. congruence.
Qed.

Lemma dict_of_record_keys (r : items) k :
  In k (keys (dict_of_record r)) <-> In k (keys r).
Proof.
  unfold dict_of_record. rewrite fold_store_keys. simpl.
  rewrite record_getitem_in_keys. intuition.
Qed.

(** [dict(d)] of a dict [d] is a copy of [d]. *)
Lemma dict_of_record_dict (d : items) :
  NoDup (keys d) -> dict_of_record d = d.
Proof.
  intros Hnd. unfold dict_of_record.
  assert (H : forall suf pre, d = pre ++ suf ->
            fold_left
              (fun acc k =>
                 match record_getitem d k with
                 | Some v => dict_setitem acc k v
                 | None => acc
                 end) (keys suf) pre = pre ++ suf).
  { induction suf as [|[k v] t IH]; intros pre Hd; simpl.
    - now rewrite app_nil_r.
    - rewrite (@record_getitem_unique d k v Hnd)
        by (rewrite Hd; apply in_or_app; right; now left).
      rewrite dict_setitem_fresh.
      + rewrite IH; rewrite <- app_assoc; [reflexivity|exact Hd].
      + rewrite Hd, keys_app in Hnd. simpl in Hnd.
        apply NoDup_remove_2 in Hnd. intros Hin. apply Hnd.
        apply in_or_app. now left. }
  exact (H d [] eq_refl).
Qed.

(** ** The encoder and decoder on [json_default] *)

Section SerializerFacts.

Variable py_str : pyobj -> string.

Notation json_default := (json_default py_str).
Notation convert := (convert py_str).
Notation convert_items := (convert_items py_str).
Notation to_dict := (to_dict py_str).

(** [json_default] answers with a string or a float, which the encoder
    writes without asking again. *)
Lemma encode_default_result fuel o :
  exists j, encode json_default fuel (json_default o) = Ok j
            /\ json_loads j = json_default o.
Proof.
  destruct o; simpl;
    first [ exists (JString (py_str PyNone)); destruct fuel; now split
          | eexists; destruct fuel; split; reflexivity ].
Qed.

Lemma mapM_encode_elems (enc : pyobj -> result json) (l : list pyobj) :
  Forall (fun o => exists j, enc o = Ok j /\ json_loads j = convert o) l ->
  exists js, mapM enc l = Ok js /\ map json_loads js = map convert l.
Proof.
  induction 1 as [|o t (j & Hj & Hl) _ (js & Hjs & Hls)]; simpl.
  - exists []. now split.
  - exists (j :: js). rewrite Hj, Hjs. simpl. now rewrite Hl, Hls.
Qed.

Lemma mapM_encode_members (enc : pyobj -> result json) (its : items) :
  Forall (fun kv => exists j, enc (snd kv) = Ok j
                              /\ json_loads j = convert (snd kv)) its ->
  exists ms,
    mapM (fun kv : string * pyobj =>
            let (k, v) := kv in
            match enc v with
            | Ok j => Ok (k, j)
            | Raise e => Raise e
            end) its = Ok ms
    /\ map (fun kv => (fst kv, json_loads (snd kv))) ms = convert_items its.
Proof.
  induction 1 as [|[k v] t (j & Hj & Hl) _ (ms & Hms & Hls)]; simpl.
  - exists []. now split.
  - simpl in Hj, Hl. exists ((k, j) :: ms). rewrite Hj, Hms. simpl.
    now rewrite Hl, Hls.
Qed.

(** With room for one call of the hook, the encoder succeeds on every
    value, and the decoder reads back [convert] of the value. *)
Lemma encode_loads fuel (o : pyobj) :
  exists j, encode json_default (S fuel) o = Ok j
            /\ json_loads j = convert o.
Proof.
  induction o as [ | b | z | f | s | l IH | l IH | its IH | d | d | d | r ]
    using pyobj_nested_ind;
    try (eexists; split; reflexivity).
  - destruct (mapM_encode_elems _ IH) as (js & Hjs & Hls).
    exists (JArray js). simpl. simpl in Hjs. rewrite Hjs. simpl.
    now rewrite Hls.
  - destruct (mapM_encode_elems _ IH) as (js & Hjs & Hls).
    exists (JArray js). simpl. simpl in Hjs. rewrite Hjs. simpl.
    now rewrite Hls.
  - destruct (mapM_encode_members _ IH) as (ms & Hms & Hls).
    exists (JObject ms). simpl. simpl in Hms. rewrite Hms. simpl.
    now rewrite Hls.
  - apply (encode_default_result fuel (PyDatetime d)).
  - apply (encode_default_result fuel (PyDate d)).
  - apply (encode_default_result fuel (PyDecimal d)).
  - apply (encode_default_result fuel (PyOpaque r)).
Qed.

Lemma json_dumps_loads (o : pyobj) :
  exists j, json_dumps json_default o = Ok j /\ json_loads j = convert o.
Proof. apply encode_loads. Qed.

(** [to_dict] never raises, and its value is the dict of the record with
    every value converted. *)
Lemma to_dict_eq (record : items) :
  to_dict record = Ok (PyDict (convert_items (dict_of_record record))).
Proof.
  unfold to_dict.
  destruct (json_dumps_loads (PyDict (dict_of_record record)))
    as (j & Hj & Hl).
  rewrite Hj, Hl. simpl. f_equal. f_equal.
  apply dict_of_pairs_NoDup.
  unfold convert_items. rewrite keys_map_values.
  apply dict_of_record_NoDup.
Qed.

(** Converting a converted value changes nothing. *)
Lemma convert_convert (o : pyobj) : convert (convert o) = convert o.
Proof.
  induction o as [ | b | z | f | s | l IH | l IH | its IH | d | d | d | r ]
    using pyobj_nested_ind; try reflexivity.
  - simpl. f_equal. rewrite map_map. apply map_ext_in.
    intros o Hin. rewrite Forall_forall in IH. now apply IH.
  - simpl. f_equal. rewrite map_map. apply map_ext_in.
    intros o Hin. rewrite Forall_forall in IH. now apply IH.
  - simpl. f_equal.
    rewrite (dict_of_pairs_map_values convert).
    rewrite map_map. simpl.
    rewrite (map_ext_in _ (fun kv => (fst kv, convert (snd kv)))).
    + apply dict_of_pairs_NoDup. apply keys_dict_of_pairs_NoDup.
    + intros kv Hin. rewrite Forall_forall in IH. now rewrite IH.
Qed.

Lemma convert_items_convert_items (its : items) :
  convert_items (convert_items its) = convert_items its.
Proof.
  unfold convert_items. rewrite map_map. simpl.
  apply map_ext. intros kv. now rewrite convert_convert.
Qed.

End SerializerFacts.

(** ** The result serializer *)

Section SerializerProperties.

Variable py_str : pyobj -> string.

Notation to_dict := (to_dict py_str).

Lemma to_dict_get (record : items) k :
  exists out,
    to_dict record = Ok (PyDict out)
    /\ dict_get out k = option_map (convert py_str) (record_getitem record k).
Proof.
  exists (convert_items py_str (dict_of_record record)). split.
  - apply to_dict_eq.
  - unfold convert_items.
    rewrite dict_get_map_values. now rewrite dict_of_record_get.
Qed.

(** C2. For every row and every column of it whose value is a
    [datetime] or a [date], the serialized row holds, under the same
    key, the string [isoformat()] gives for that value. *)
Theorem to_dict_timestamp_isoformat (record : items) k v s :
  record_getitem record k = Some v ->
  isoformat v = Some s ->
  exists out,
    to_dict record = Ok (PyDict out) /\ dict_get out k = Some (PyStr s).
Proof.
  intros Hget Hiso.
  destruct (to_dict_get record k) as (out & Hout & Hk).
  exists out. split; [exact Hout|].
  rewrite Hk, Hget. simpl.
  destruct v; simpl in Hiso; try discriminate; now inversion Hiso.
Qed.

(** C3. For every row and every column of it whose value is a
    [Decimal] [d], the serialized row holds, under the same key, the
    float [float(d)]. *)
Theorem to_dict_decimal_float (record : items) k d :
  record_getitem record k = Some (PyDecimal d) ->
  exists out,
    to_dict record = Ok (PyDict out)
    /\ dict_get out k = Some (PyFloat (float_of_decimal d)).
Proof.
  intros Hget.
  destruct (to_dict_get record k) as (out & Hout & Hk).
  exists out. split; [exact Hout|]. now rewrite Hk, Hget.
Qed.

(** C4. The serialized row has the keys of the input row, each once (and
    in the same order when the row's keys are distinct); a value that is
    a string, a number, a boolean or null is passed through unchanged,
    and a value of a type the encoder cannot write, other than a
    timestamp, a date or a decimal, is replaced by [str(value)]. *)
Theorem to_dict_keys_and_values (record : items) :
  exists out,
    to_dict record = Ok (PyDict out)
    /\ NoDup (keys out)
    /\ (forall k, In k (keys out) <-> In k (keys record))
    /\ (NoDup (keys record) -> keys out = keys record)
    /\ (forall k v, record_getitem record k = Some v ->
                    json_scalar v = true -> dict_get out k = Some v)
    /\ (forall k v, record_getitem record k = Some v ->
                    other_type v = true ->
                    dict_get out k = Some (PyStr (py_str v))).
Proof.
  exists (convert_items py_str (dict_of_record record)).
  assert (Hget : forall k,
             dict_get (convert_items py_str (dict_of_record record)) k
             = option_map (convert py_str) (record_getitem record k)).
  { intros k. unfold convert_items.
    rewrite dict_get_map_values. now rewrite dict_of_record_get. }
  assert (Hkeys : keys (convert_items py_str (dict_of_record record))
                  = keys (dict_of_record record)).
  { apply keys_map_values. }
  repeat split.
  - apply to_dict_eq.
  - rewrite Hkeys. apply dict_of_record_NoDup.
  - rewrite Hkeys. apply dict_of_record_keys.
  - rewrite Hkeys. apply dict_of_record_keys.
  - intros Hnd. rewrite Hkeys. now rewrite dict_of_record_dict.
  - intros k v Hv Hs. rewrite Hget, Hv. simpl.
    destruct v; simpl in Hs; try discriminate; reflexivity.
  - intros k v Hv Hs. rewrite Hget, Hv. simpl.
    destruct v; simpl in Hs; try discriminate; reflexivity.
Qed.

(** C10. The row serializer is idempotent: serializing the mapping it
    returned gives that mapping again. *)
Theorem to_dict_idempotent (record : items) :
  exists out,
    to_dict record = Ok (PyDict out) /\ to_dict out = Ok (PyDict out).
Proof.
  exists (convert_items py_str (dict_of_record record)). split.
  - apply to_dict_eq.
  - rewrite to_dict_eq. rewrite dict_of_record_dict.
    + now rewrite convert_items_convert_items.
    + unfold convert_items.
      rewrite keys_map_values. apply dict_of_record_NoDup.
Qed.

End SerializerProperties.

(** ** The action runner *)

Section ActionProperties.

Variable py_str : pyobj -> string.
Variables world conn ResourceCredentials : Type.
Variable asyncpg_connect :
  string -> string -> string -> string -> Z -> M world conn.
Variable conn_fetch : conn -> string -> Z -> M world (list items).
Variable conn_close : conn -> M world unit.
Variable resource_load : string -> M world ResourceCredentials.
Variable get_credentials : ResourceCredentials -> result Connection.

Lemma to_dict_serialized (row : items) :
  to_dict py_str row = Ok (serialized py_str row).
Proof. apply to_dict_eq. Qed.

Lemma mapM_to_dict (rows : list items) :
  mapM (to_dict py_str) rows = Ok (map (serialized py_str) rows).
Proof.
  induction rows as [|row t IH]; simpl; [reflexivity|].
  rewrite to_dict_serialized. simpl in IH. now rewrite IH.
Qed.

(** What [run] does after a [fetch] that returned rows. *)
Lemma run_fetched (self : action conn) payload db w rows w' :
  self_db self = Some db ->
  conn_fetch db (self_query self) (self_timeout self) w = (Ok rows, w') ->
  run py_str conn_fetch self payload w
  = (Ok {| res_port := "result";
           res_value :=
             PyDict [("result", PyList (map (serialized py_str) rows))] |},
     w').
Proof.
  intros Hdb Hfetch. unfold run, define, bind, lift, ret.
  rewrite Hdb, Hfetch, mapM_to_dict. reflexivity.
Qed.

(** A failure of [fetch] (a timeout, a rejected query) is the failure of
    [run]; nothing is retried. *)
Lemma run_fetch_raises (self : action conn) payload db w e w' :
  self_db self = Some db ->
  conn_fetch db (self_query self) (self_timeout self) w = (Raise e, w') ->
  run py_str conn_fetch self payload w = (Raise e, w').
Proof.
  intros Hdb Hfetch. unfold run, define, bind.
  rewrite Hdb, Hfetch. reflexivity.
Qed.

(** C1. For every query result, [run] returns on the port ["result"]
    the mapping [{"result": [...]}] whose list holds one serialized row
    per row of the result; for a result without rows the list is
    empty. *)
Theorem run_returns_result_mapping
    (self : action conn) payload db w rows w' :
  self_db self = Some db ->
  conn_fetch db (self_query self) (self_timeout self) w = (Ok rows, w') ->
  exists out,
    run py_str conn_fetch self payload w
    = (Ok {| res_port := "result";
             res_value := PyDict [("result", PyList out)] |}, w')
    /\ Forall2 (fun row o => to_dict py_str row = Ok o) rows out
    /\ List.length out = List.length rows
    /\ (rows = [] -> out = []).
Proof.
  intros Hdb Hfetch. exists (map (serialized py_str) rows).
  split; [now apply (run_fetched self payload Hdb Hfetch)|]. split; [|split].
  - clear Hfetch. induction rows as [|row t IH]; constructor.
    + apply to_dict_serialized.
    + exact IH.
  - apply length_map.
  - intros ->. reflexivity.
Qed.

(** C5. The list [run] returns is the map of the row serializer over
    the query result, so the row at each position of the output is the
    serialized row at that position of the result. *)
Theorem run_maps_rows_in_order
    (self : action conn) payload db w rows w' :
  self_db self = Some db ->
  conn_fetch db (self_query self) (self_timeout self) w = (Ok rows, w') ->
  exists f : items -> pyobj,
    (forall row, to_dict py_str row = Ok (f row))
    /\ run py_str conn_fetch self payload w
       = (Ok {| res_port := "result";
                res_value := PyDict [("result", PyList (map f rows))] |},
          w')
    /\ (forall i, nth_error (map f rows) i
                  = option_map f (nth_error rows i)).
Proof.
  intros Hdb Hfetch. exists (serialized py_str).
  split; [exact to_dict_serialized|].
  split; [now apply (run_fetched self payload Hdb Hfetch)|].
  intros i. apply nth_error_map.
Qed.

(** C8. With the same action state and the same world, two payloads
    give the same outcome of [run]: the same value or exception, and
    the same world afterwards. *)
Theorem run_ignores_payload (self : action conn) (p1 p2 : pyobj) w :
  run py_str conn_fetch self p1 w = run py_str conn_fetch self p2 w.
Proof. reflexivity. Qed.

(** What the statements of [__init__] do, read one after the other: a
    failed resolution or a failed connect is the failure of the whole,
    and a success stores the handle, the query and the timeout. *)
Lemma init_body_outcome (config : Configuration)
    (credentials : ResourceCredentials) w :
  init_body asyncpg_connect get_credentials config credentials w
  = match get_credentials credentials with
    | Raise e => (Raise e, w)
    | Ok c =>
        match asyncpg_connect (database c) (user c) (password c)
                (host c) (port c) w with
        | (Raise e, w') => (Raise e, w')
        | (Ok db, w') =>
            (Ok {| self_db := Some db;
                   self_query := query config;
                   self_timeout := timeout config |}, w')
        end
    end.
Proof.
  unfold init_body, Connection_connect, define, bind, lift, ret.
  destruct (get_credentials credentials) as [c|e]; [|reflexivity].
  destruct (asyncpg_connect _ _ _ _ _ w) as [[db|e] w']; reflexivity.
Qed.

(** C6 (the code departs from the claim). [__init__] is a plain [def]
    whose body awaits, so it is rejected with a [SyntaxError] for every
    configuration and every credentials, whatever the host and the server
    do; no connection is opened, no query text or timeout is stored, and
    [build] never returns an action. *)
Theorem init_never_initializes (config : Configuration)
    (credentials : ResourceCredentials) (kwargs : items) w :
  PostreSQLConnectorAction_init asyncpg_connect get_credentials
    config credentials w = (Raise SyntaxError, w)
  /\ (forall a w',
        build asyncpg_connect resource_load get_credentials kwargs w
        <> (Ok a, w')).
Proof.
  split; [reflexivity|].
  intros a w'. unfold build, define, bind, lift, raise.
  destruct (validate kwargs) as [c|e]; [|discriminate].
  destruct (resource_load (source_id c) w) as [[r|e] w1]; discriminate.
Qed.

(** What [close] does: nothing without a connection object, otherwise
    one call of the driver's [close], whose outcome is its own. *)
Lemma close_outcome (self : action conn) w :
  close conn_close self w
  = match self_db self with
    | None => (Ok tt, w)
    | Some db => conn_close db w
    end.
Proof. unfold close, define, ret. now destruct (self_db self). Qed.

(** C7 (amended). [close] succeeds and changes nothing when the action
    holds no connection; when it holds one, it calls the driver's [close]
    on it and returns or raises what that call does.  Over a driver whose
    [close], once it has succeeded on a connection, succeeds on it again
    without any effect, a second [close] after a successful one succeeds
    and changes nothing. *)
Theorem close_delegates_to_driver :
  (forall db w w',
      conn_close db w = (Ok tt, w') -> conn_close db w' = (Ok tt, w')) ->
  forall (self : action conn) w,
    (self_db self = None -> close conn_close self w = (Ok tt, w))
    /\ (forall db, self_db self = Some db ->
                   close conn_close self w = conn_close db w)
    /\ (forall w', close conn_close self w = (Ok tt, w') ->
                   close conn_close self w' = (Ok tt, w')).
Proof.
  intros Hdriver self w. repeat split.
  - intros Hdb. now rewrite close_outcome, Hdb.
  - intros db Hdb. now rewrite close_outcome, Hdb.
  - intros w'. rewrite !close_outcome.
    destruct (self_db self) as [db|].
    + apply Hdriver.
    + intros H. now inversion H.
Qed.

End ActionProperties.

(** ** The defaults *)

(** C9. A [Connection] built without [host] has host ["localhost"], one
    built without [port] has port 5439, and a [Configuration] built
    without [timeout] has timeout 20, the value the [init] mapping of
    [register] carries too. *)
Theorem defaults_of_connection_and_configuration :
  (forall database user password port,
      host (Connection_new database user password None port) = "localhost")
  /\ (forall database user password host,
        port (Connection_new database user password host None) = 5439)
  /\ (forall source_id query,
        timeout (Configuration_new source_id query None) = 20)
  /\ dict_get register_init "timeout" = Some (PyInt 20).
Proof. repeat split. Qed.

(** ** The action in the simulated world *)

(** The row of the spec's scenario: the timestamp becomes its ISO string
    and the decimal 19.99 the nearest binary64 number. *)
Example to_dict_scenario_row :
  to_dict Sim.py_str Sim.row1
  = Ok (PyDict [ ("id", PyInt 1);
                 ("created", PyStr "2023-01-01T00:00:00");
                 ("amount",
                  PyFloat (S754_finite false 5626684784446013 (-48))) ]).
Proof. vm_compute. reflexivity. Qed.

(** A tuple is written as a JSON array and read back as a list, with its
    elements converted; of two columns with one name the last one stays. *)
Example to_dict_tuple_and_duplicate :
  to_dict Sim.py_str
    [ ("a", PyInt 1);
      ("p", PyTuple [PyDecimal DecNaN; PyOpaque "x"]);
      ("a", PyDate (mkDate 1 2 3)) ]
  = Ok (PyDict [ ("a", PyStr "0001-02-03");
                 ("p", PyList [PyFloat S754_nan; PyStr "x"]) ]).
Proof. vm_compute. reflexivity. Qed.

(** A query that returns no row. *)
Example run_zero_rows :
  fst (Sim.run (Sim.act 20) PyNone
         {| Sim.server_up := true; Sim.latency := 0; Sim.table := [];
            Sim.resources := []; Sim.cancel_lost := false;
            Sim.open_conns := [0%nat]; Sim.broken_conns := [];
            Sim.next_conn := 1%nat |})
  = Ok {| res_port := "result";
          res_value := PyDict [("result", PyList [])] |}.
Proof. reflexivity. Qed.

(** With valid credentials and a reachable server the statements of
    [__init__] would give an action, and [__init__] itself raises. *)
Example init_on_reachable_server :
  fst (Sim.init_statements (Configuration_new "pg-1" "SELECT 1" None)
         (Some Sim.pg) Sim.w0)
  = Ok {| self_db := Some 1%nat; self_query := "SELECT 1";
          self_timeout := 20 |}
  /\ fst (Sim.init (Configuration_new "pg-1" "SELECT 1" None)
            (Some Sim.pg) Sim.w0)
     = Raise SyntaxError.
Proof. split; reflexivity. Qed.

Lemma mem_without (c : nat) (l : list nat) :
  Sim.mem c (Sim.without c l) = false.
Proof.
  induction l as [|x t IH]; simpl; [reflexivity|].
  destruct (Nat.eqb c x) eqn:E; simpl; [exact IH|].
  now rewrite E.
Qed.

(** The simulated driver closes a connection once: a second [close] on it
    succeeds without any effect. *)
Lemma sim_close_again (db : nat) (w w' : Sim.world) :
  Sim.db_close db w = (Ok tt, w') -> Sim.db_close db w' = (Ok tt, w').
Proof.
  unfold Sim.db_close.
  destruct (Sim.mem db (Sim.open_conns w)) eqn:Eo; simpl.
  - destruct (Sim.mem db (Sim.broken_conns w)); [discriminate|].
    intros H. inversion H; subst; clear H. simpl.
    now rewrite mem_without.
  - intros H. inversion H; subst; clear H. now rewrite Eo.
Qed.

Lemma to_dict_timestamp_isoformat_witness :
  exists out,
    to_dict Sim.py_str Sim.row1 = Ok (PyDict out)
    /\ dict_get out "created" = Some (PyStr "2023-01-01T00:00:00").
Proof.
  apply (@to_dict_timestamp_isoformat Sim.py_str Sim.row1 "created"
           (PyDatetime Sim.new_year)); reflexivity.
Defined.

Lemma to_dict_decimal_float_witness :
  exists out,
    to_dict Sim.py_str Sim.row1 = Ok (PyDict out)
    /\ dict_get out "amount"
       = Some (PyFloat (float_of_decimal (DecFinite false 1999 (-2)))).
Proof.
  apply (@to_dict_decimal_float Sim.py_str Sim.row1 "amount"). reflexivity.
Defined.

Lemma to_dict_keys_and_values_witness :
  exists out,
    to_dict Sim.py_str Sim.row2 = Ok (PyDict out)
    /\ keys out = ["id"; "created"; "amount"]
    /\ dict_get out "id" = Some (PyInt 2)
    /\ dict_get out "amount" = Some (PyStr "b'\x00'").
Proof.
  destruct (to_dict_keys_and_values Sim.py_str Sim.row2)
    as (out & Hout & _ & _ & Hkeys & Hscalar & Hother).
  exists out. split; [exact Hout|]. split; [|split].
  - apply Hkeys. repeat constructor; simpl; intuition discriminate.
  - apply Hscalar; reflexivity.
  - apply (Hother "amount" (PyOpaque "b'\x00'")); reflexivity.
Defined.

Lemma run_returns_result_mapping_witness :
  exists out,
    Sim.run (Sim.act 20) PyNone Sim.w0
    = (Ok {| res_port := "result";
             res_value := PyDict [("result", PyList out)] |}, Sim.w0)
    /\ Forall2 (fun row o => to_dict Sim.py_str row = Ok o)
         [Sim.row1; Sim.row2] out
    /\ List.length out = 2%nat
    /\ ([Sim.row1; Sim.row2] = [] -> out = []).
Proof.
  apply (@run_returns_result_mapping Sim.py_str Sim.world nat Sim.db_fetch
           (Sim.act 20) PyNone 0%nat Sim.w0 [Sim.row1; Sim.row2] Sim.w0);
    reflexivity.
Defined.

Lemma run_maps_rows_in_order_witness :
  exists f : items -> pyobj,
    (forall row, to_dict Sim.py_str row = Ok (f row))
    /\ Sim.run (Sim.act 20) PyNone Sim.w0
       = (Ok {| res_port := "result";
                res_value :=
                  PyDict [("result", PyList (map f [Sim.row1; Sim.row2]))] |},
          Sim.w0)
    /\ (forall i, nth_error (map f [Sim.row1; Sim.row2]) i
                  = option_map f (nth_error [Sim.row1; Sim.row2] i)).
Proof.
  apply (@run_maps_rows_in_order Sim.py_str Sim.world nat Sim.db_fetch
           (Sim.act 20) PyNone 0%nat Sim.w0 [Sim.row1; Sim.row2] Sim.w0);
    reflexivity.
Defined.

Lemma close_delegates_to_driver_witness :
  (forall db w w',
      Sim.db_close db w = (Ok tt, w') -> Sim.db_close db w' = (Ok tt, w'))
  /\ Sim.close (Sim.act 20) Sim.w0 = Sim.db_close 0%nat Sim.w0
  /\ (forall w', Sim.close (Sim.act 20) Sim.w0 = (Ok tt, w') ->
                 Sim.close (Sim.act 20) w' = (Ok tt, w')).
Proof.
  split; [exact sim_close_again|].
  destruct (@close_delegates_to_driver Sim.world nat Sim.db_close
              sim_close_again (Sim.act 20) Sim.w0) as (_ & Hsome & Htwice).
  split; [apply Hsome; reflexivity|exact Htwice].
Defined.

(** C7 as stated fails: in the simulated world the query of an action
    with a timeout of two seconds times out, the driver's cancel request
    is lost, and the [close] that follows raises. *)
Lemma close_raises_after_timeout :
  fst (Sim.run (Sim.act 2) PyNone Sim.w0) = Raise TimeoutError
  /\ fst (Sim.close (Sim.act 2) (snd (Sim.run (Sim.act 2) PyNone Sim.w0)))
     = Raise ConnectionError.
Proof. split; reflexivity. Qed.

(* ================================================================== *)
(** * Further properties of the serializer and the runner *)

(** ** JSON-native values *)

Lemma existsb_eqb_In (k : string) (l : list string) :
  existsb (String.eqb k) l = true <-> In k l.
Proof.
  rewrite existsb_exists. split.
  - intros (x & Hin & Heq). apply String.eqb_eq in Heq. now subst.
  - intros Hin. exists k. split; [exact Hin|apply String.eqb_refl].
Qed.





Section NativeFacts.

Variable py_str : pyobj -> string.




End NativeFacts.

(** ** The order of the keys *)

Lemma filter_filter_andb {A} (P Q : A -> bool) (l : list A) :
  filter P (filter Q l) = filter (fun x => Q x && P x) l.
Proof.
  induction l as [|x t IH]; simpl; [reflexivity|].
  destruct (Q x); simpl; [destruct (P x)|]; now rewrite IH.
Qed.

Lemma filter_all {A} (P : A -> bool) (l : list A) :
  (forall x, In x l -> P x = true) -> filter P l = l.
Proof.
  induction l as [|x t IH]; simpl; intros H; [reflexivity|].
  rewrite (H x) by now left. f_equal. apply IH. intros y Hy. apply H.
  now right.
Qed.

Lemma keys_dict_setitem (d : items) k v :
  keys (dict_setitem d k v)
  = if existsb (String.eqb k) (keys d) then keys d else keys d ++ [k].
Proof.
  destruct (existsb (String.eqb k) (keys d)) eqn:E.
  - apply keys_dict_setitem_known. now apply existsb_eqb_In.
  - rewrite dict_setitem_fresh.
    + rewrite keys_app. reflexivity.
    + intros Hin. apply existsb_eqb_In in Hin. congruence.
Qed.

Section KeyOrder.

Variable g : string -> option pyobj.

Lemma fold_store_keys_order (ks : list string) (acc : items) :
  (forall k, In k ks -> g k <> None) ->
  keys (fold_left
          (fun d k =>
             match g k with
             | Some v => dict_setitem d k v
             | None => d
             end) ks acc)
  = keys acc
    ++ filter (fun x => negb (existsb (String.eqb x) (keys acc)))
         (first_occurrences ks).
Proof.
  revert acc. induction ks as [|k t IH]; intros acc Hg; simpl.
  - now rewrite app_nil_r.
  - rewrite IH by (intros k' Hk'; apply Hg; now right).
    destruct (g k) as [v|] eqn:E; [|exfalso; apply (Hg k); [now left|exact E]].
    rewrite keys_dict_setitem.
    destruct (existsb (String.eqb k) (keys acc)) eqn:Ek; simpl.
    + f_equal. rewrite filter_filter_andb. apply filter_ext_in.
      intros x _.
      destruct (String.eqb_spec x k) as [->|Hne]; simpl; [|reflexivity].
      now rewrite Ek.
    + rewrite <- app_assoc. simpl. f_equal. f_equal.
      rewrite filter_filter_andb. apply filter_ext_in. intros x _.
      rewrite existsb_app. simpl. rewrite orb_false_r, negb_orb.
      apply andb_comm.
Qed.

End KeyOrder.

Lemma keys_dict_of_record (r : items) :
  keys (dict_of_record r) = first_occurrences (keys r).
Proof.
  unfold dict_of_record. rewrite fold_store_keys_order.
  - simpl. apply filter_all. reflexivity.
  - intros k Hk. now apply record_getitem_in_keys.
Qed.

Lemma record_getitem_last (r1 r2 : items) k v :
  ~ In k (keys r2) -> record_getitem (r1 ++ (k, v) :: r2) k = Some v.
Proof.
  intros Hnin. induction r1 as [|[k' v'] t IH]; simpl.
  - destruct (record_getitem r2 k) eqn:E.
    + exfalso. apply Hnin. apply record_getitem_in_keys. now rewrite E.
    + now rewrite String.eqb_refl.
  - now rewrite IH.
Qed.

(** ** More on [to_dict] *)

Section SerializerExtras.

Variable py_str : pyobj -> string.



(** X3. A column that holds a list or a tuple comes out as a list of the
    same length whose elements are converted one by one like top-level
    values: scalars unchanged, timestamps and dates as ISO strings,
    decimals as floats, other objects as [str]. *)
Theorem to_dict_converts_elements (record : items) k v l :
  record_getitem record k = Some v ->
  v = PyList l \/ v = PyTuple l ->
  exists out l',
    to_dict py_str record = Ok (PyDict out)
    /\ dict_get out k = Some (PyList l')
    /\ List.length l' = List.length l
    /\ forall i x, nth_error l i = Some x ->
         (json_scalar x = true -> nth_error l' i = Some x)
         /\ (forall s, isoformat x = Some s ->
                       nth_error l' i = Some (PyStr s))
         /\ (forall d, x = PyDecimal d ->
                       nth_error l' i = Some (PyFloat (float_of_decimal d)))
         /\ (other_type x = true ->
             nth_error l' i = Some (PyStr (py_str x))).
Proof.
  intros Hget Hv.
  exists (convert_items py_str (dict_of_record record)),
         (map (convert py_str) l).
  split; [apply to_dict_eq|]. split; [|split].
  - unfold convert_items. rewrite dict_get_map_values, dict_of_record_get.
    rewrite Hget. now destruct Hv as [-> | ->].
  - apply length_map.
  - intros i x Hx. rewrite nth_error_map, Hx. simpl. repeat split.
    + intros Hs. destruct x; simpl in Hs; try discriminate; reflexivity.
    + intros s Hs. destruct x; simpl in Hs; try discriminate;
        now inversion Hs.
    + intros d ->. reflexivity.
    + intros Ho. destruct x; simpl in Ho; try discriminate; reflexivity.
Qed.

(** X4. Of several columns with one name the last one is serialized:
    the value under that name is the one [to_dict] gives for that column
    alone. *)
Theorem to_dict_last_column_wins (r1 r2 : items) k v :
  ~ In k (keys r2) ->
  exists out out1,
    to_dict py_str (r1 ++ (k, v) :: r2) = Ok (PyDict out)
    /\ to_dict py_str [(k, v)] = Ok (PyDict out1)
    /\ dict_get out1 k <> None
    /\ dict_get out k = dict_get out1 k.
Proof.
  intros Hnin.
  exists (convert_items py_str (dict_of_record (r1 ++ (k, v) :: r2))),
         (convert_items py_str (dict_of_record [(k, v)])).
  split; [apply to_dict_eq|]. split; [apply to_dict_eq|].
  unfold convert_items. rewrite !dict_get_map_values, !dict_of_record_get.
  rewrite record_getitem_last by exact Hnin.
  simpl. rewrite String.eqb_refl. split; [discriminate|reflexivity].
Qed.

(** X5. The keys of the serialized row are the column names of the row,
    each once, in the order of their first appearance. *)
Theorem to_dict_keys_in_column_order (record : items) :
  exists out,
    to_dict py_str record = Ok (PyDict out)
    /\ keys out = first_occurrences (keys record).
Proof.
  exists (convert_items py_str (dict_of_record record)).
  split; [apply to_dict_eq|].
  unfold convert_items. rewrite keys_map_values. apply keys_dict_of_record.
Qed.

(** X6. [json_default] always answers with a string or a float, and with
    a float only for a [Decimal]; it never hands back an object the
    encoder would have to ask about again. *)
Theorem json_default_returns_scalar (obj : pyobj) :
  json_scalar (json_default py_str obj) = true
  /\ (forall f, json_default py_str obj = PyFloat f ->
                exists d, obj = PyDecimal d /\ f = float_of_decimal d)
  /\ ((exists s, json_default py_str obj = PyStr s)
      \/ exists f, json_default py_str obj = PyFloat f).
Proof.
  destruct obj; simpl; (split; [reflexivity|]); split;
    try (intros f0 H; discriminate);
    try (left; eexists; reflexivity).
  - intros f H. inversion H. now exists d.
  - right. eexists; reflexivity.
Qed.

End SerializerExtras.

(** ** More on the runner *)

Section ActionExtras.

Variable py_str : pyobj -> string.
Variables world conn : Type.
Variable asyncpg_connect :
  string -> string -> string -> string -> Z -> M world conn.
Variable conn_fetch : conn -> string -> Z -> M world (list items).
Variable conn_close : conn -> M world unit.

(** X7. With a connection, [run] raises exactly when the driver's
    [fetch] of the configured query with the configured timeout raises,
    and then the same exception; serializing adds no failure of its own,
    and the world after [run] is the world after that one [fetch]. *)
Theorem run_raises_exactly_as_fetch (self : action conn) payload db w :
  self_db self = Some db ->
  (forall e,
      fst (run py_str conn_fetch self payload w) = Raise e
      <-> fst (conn_fetch db (self_query self) (self_timeout self) w)
          = Raise e)
  /\ snd (run py_str conn_fetch self payload w)
     = snd (conn_fetch db (self_query self) (self_timeout self) w).
Proof.
  intros Hdb. unfold run, define, bind, lift, ret. rewrite Hdb.
  destruct (conn_fetch db (self_query self) (self_timeout self) w)
    as [[rows|e0] w'].
  - rewrite mapM_to_dict. simpl. split; [|reflexivity].
    intros e. split; discriminate.
  - simpl. split; [|reflexivity].
    intros e. split; intros H; inversion H; reflexivity.
Qed.

(** X8. [run] has no guard for a missing connection: on an action whose
    [db] is [None] it raises an [AttributeError] and leaves the world
    untouched, while [close] on the same action succeeds. *)
Theorem run_without_connection (self : action conn) payload w :
  self_db self = None ->
  run py_str conn_fetch self payload w = (Raise AttributeError, w)
  /\ close conn_close self w = (Ok tt, w).
Proof.
  intros Hdb. unfold run, close, define, raise, ret. now rewrite Hdb.
Qed.


(** X10. The defaults reach the driver: a [Connection] built from the
    three required fields alone connects to ["localhost"], port 5439,
    and a host and a port that were given are passed on as they are. *)
Theorem connect_uses_defaults (database user password : string) :
  Connection_connect asyncpg_connect
    (Connection_new database user password None None)
  = asyncpg_connect database user password "localhost" 5439
  /\ forall h p,
       Connection_connect asyncpg_connect
         (Connection_new database user password (Some h) (Some p))
       = asyncpg_connect database user password h p.
Proof. split; [|intros h p]; reflexivity. Qed.

End ActionExtras.

Lemma to_dict_converts_elements_witness :
  exists out l',
    to_dict Sim.py_str
      [("tags", PyTuple [PyInt 7; PyDecimal (DecFinite false 5 (-1));
                         PyDate (mkDate 2024 2 29)])]
    = Ok (PyDict out)
    /\ dict_get out "tags" = Some (PyList l')
    /\ List.length l' = 3%nat
    /\ nth_error l' 1
       = Some (PyFloat (float_of_decimal (DecFinite false 5 (-1))))
    /\ nth_error l' 2 = Some (PyStr "2024-02-29").
Proof.
  destruct (@to_dict_converts_elements Sim.py_str
              [("tags", PyTuple [PyInt 7; PyDecimal (DecFinite false 5 (-1));
                                 PyDate (mkDate 2024 2 29)])]
              "tags" _ _ eq_refl (or_intror eq_refl))
    as (out & l' & Hout & Hget & Hlen & Helems).
  exists out, l'. split; [exact Hout|]. split; [exact Hget|].
  split; [exact Hlen|]. split.
  - apply (Helems 1%nat (PyDecimal (DecFinite false 5 (-1))) eq_refl).
    reflexivity.
  - apply (Helems 2%nat (PyDate (mkDate 2024 2 29)) eq_refl). reflexivity.
Defined.

Lemma to_dict_last_column_wins_witness :
  exists out out1,
    to_dict Sim.py_str [("a", PyInt 1); ("a", PyNone); ("b", PyInt 2)]
    = Ok (PyDict out)
    /\ to_dict Sim.py_str [("a", PyNone)] = Ok (PyDict out1)
    /\ dict_get out1 "a" <> None
    /\ dict_get out "a" = dict_get out1 "a".
Proof.
  apply (@to_dict_last_column_wins Sim.py_str
           [("a", PyInt 1)] [("b", PyInt 2)] "a" PyNone).
  simpl. intros [H|[]]. discriminate.
Defined.

Lemma run_raises_exactly_as_fetch_witness :
  (forall e,
      fst (Sim.run (Sim.act 2) PyNone Sim.w0) = Raise e
      <-> fst (Sim.db_fetch 0%nat "SELECT * FROM orders" 2 Sim.w0) = Raise e)
  /\ snd (Sim.run (Sim.act 2) PyNone Sim.w0)
     = snd (Sim.db_fetch 0%nat "SELECT * FROM orders" 2 Sim.w0).
Proof.
  apply (@run_raises_exactly_as_fetch Sim.py_str Sim.world nat Sim.db_fetch
           (Sim.act 2) PyNone 0%nat Sim.w0).
  reflexivity.
Defined.

Lemma run_without_connection_witness :
  run Sim.py_str Sim.db_fetch
    {| self_db := None; self_query := "SELECT 1"; self_timeout := 20 |}
    PyNone Sim.w0 = (Raise AttributeError, Sim.w0)
  /\ close Sim.db_close
       {| self_db := None; self_query := "SELECT 1"; self_timeout := 20 |}
       Sim.w0 = (Ok tt, Sim.w0).
Proof.
  apply (@run_without_connection Sim.py_str Sim.world nat Sim.db_fetch
           Sim.db_close). reflexivity.
Defined.

